(** * StrKeyDict0: a dict whose lookups fall back to the key's text form

    Shallow embedding of [code/ch03/StrKeyDict0-test.py].  The class
    extends the built-in [dict] with three methods: the [__missing__]
    hook, [get] and [__contains__].  Everything else ([__init__],
    [__getitem__], [keys]) is inherited from [dict] and is modelled here
    as the primitives the three methods are written with. *)

From Stdlib Require Import ZArith List String Lia DecimalString.
Import ListNotations.
Local Open Scope string_scope.
Local Open Scope list_scope.

(** ** Keys and values *)

(** The hashable scalars used as keys: [str], [int], [bool], [None],
    and instances of a subclass of [str] that overrides [__str__] (a
    member of a [(str, Enum)] class, say).  Such an instance compares
    and hashes as the string [s] it holds, while [str()] of it returns
    [text]. *)
Inductive key : Type :=
| KStr (s : string)
| KStrSub (s : string) (text : string)
| KInt (z : Z)
| KBool (b : bool)
| KNone.

(** Stored values; [VNone] is what [get] falls back to when no default
    is passed. *)
Inductive value : Type :=
| VStr (s : string)
| VInt (z : Z)
| VNone.

(** [isinstance(key, str)]: true of a [str] and of an instance of any
    subclass of [str]. *)
Definition isinstance_str (k : key) : bool :=
  match k with
  | KStr _ | KStrSub _ _ => true
  | _ => false
  end.

(** The string a text-typed key compares as. *)
Definition as_str (k : key) : option string :=
  match k with
  | KStr s | KStrSub s _ => Some s
  | _ => None
  end.

(** The integer a numeric key compares as ([bool] is a subclass of
    [int]: [True == 1] and [False == 0], with equal hashes). *)
Definition as_int (k : key) : option Z :=
  match k with
  | KInt z => Some z
  | KBool true => Some 1%Z
  | KBool false => Some 0%Z
  | _ => None
  end.

(** Key comparison as the dict performs it: [==] on keys. *)
Definition py_eq (a b : key) : bool :=
  match as_str a, as_str b with
  | Some s, Some t => String.eqb s t
  | Some _, None | None, Some _ => false
  | None, None =>
      match a, b with
      | KNone, KNone => true
      | KNone, _ | _, KNone => false
      | _, _ =>
          match as_int a, as_int b with
          | Some x, Some y => Z.eqb x y
          | _, _ => false
          end
      end
  end.

(** [str(key)]: a string is returned unchanged, an integer is written in
    decimal with a leading minus sign when negative; a subclass that
    overrides [__str__] returns its own text. *)
Definition str (k : key) : string :=
  match k with
  | KStr s => s
  | KStrSub _ text => text
  | KInt z => NilZero.string_of_int (Z.to_int z)
  | KBool true => "True"
  | KBool false => "False"
  | KNone => "None"
  end.

(** ** The inherited dict *)

(** Entries in insertion order. *)
Definition dict : Type := list (key * value).

(** The raw table lookup: the value of the first entry whose key
    compares equal. *)
Fixpoint dict_lookup (d : dict) (k : key) : option value :=
  match d with
  | [] => None
  | (k', v) :: d' => if py_eq k k' then Some v else dict_lookup d' k
  end.

(** [d.keys()] *)
Definition keys (d : dict) : list key := map fst d.

(** [k in d.keys()]: the membership test of the keys view, which goes to
    the table and not through the subclass. *)
Definition keys_contains (d : dict) (k : key) : bool :=
  existsb (py_eq k) (keys d).

(** [dict.__setitem__]: an entry with an equal key keeps its place and
    its stored key and takes the new value; otherwise the pair is
    appended. *)
Fixpoint dict_setitem (d : dict) (k : key) (v : value) : dict :=
  match d with
  | [] => [(k, v)]
  | (k', v') :: d' =>
      if py_eq k k' then (k', v) :: d' else (k', v') :: dict_setitem d' k v
  end.

(** [dict.__init__] from a sequence of pairs; [StrKeyDict0] does not
    override it. *)
Definition dict_init (pairs : list (key * value)) : dict :=
  fold_left (fun d kv => dict_setitem d (fst kv) (snd kv)) pairs [].

(** ** Effects: the instance, exceptions, and a record of what ran *)

Inductive exn : Type :=
| KeyError (k : key).

(** What a method did, in order. *)
Inductive event : Type :=
| EvLookup (k : key)        (* table lookup made by [self[k]] *)
| EvMissing (k : key)       (* [__missing__(k)] entered *)
| EvStr (k : key)           (* [str(k)] evaluated *)
| EvKeysContains (k : key). (* [k in self.keys()] evaluated *)

Record state : Type := mkState
  { store : dict;
    trace : list event }.

Inductive outcome (A : Type) : Type :=
| Ret (a : A)
| Raise (e : exn)
| OutOfFuel.
Arguments Ret {A} a.
Arguments Raise {A} e.
Arguments OutOfFuel {A}.

Definition M (A : Type) : Type := state -> outcome A * state.

Definition ret {A} (a : A) : M A := fun st => (Ret a, st).

Definition raise {A} (e : exn) : M A := fun st => (Raise e, st).

Definition out_of_fuel {A} : M A := fun st => (OutOfFuel, st).

Definition bind {A B} (m : M A) (f : A -> M B) : M B :=
  fun st =>
    match m st with
    | (Ret a, st') => f a st'
    | (Raise e, st') => (Raise e, st')
    | (OutOfFuel, st') => (OutOfFuel, st')
    end.

(** [try: m  except KeyError: h] *)
Definition try_except_KeyError {A} (m : M A) (h : M A) : M A :=
  fun st =>
    match m st with
    | (Raise (KeyError _), st') => h st'
    | r => r
    end.

Declare Scope py_scope.
Delimit Scope py_scope with py.
Notation "x <- m ;; f" := (bind m (fun x => f))
  (at level 100, m at next level, right associativity) : py_scope.
Local Open Scope py_scope.

Definition log (e : event) : M unit :=
  fun st => (Ret tt, mkState (store st) (trace st ++ [e])).

Definition lookup_prim (k : key) : M (option value) :=
  fun st => (Ret (dict_lookup (store st) k),
             mkState (store st) (trace st ++ [EvLookup k])).

Definition keys_contains_prim (k : key) : M bool :=
  fun st => (Ret (keys_contains (store st) k),
             mkState (store st) (trace st ++ [EvKeysContains k])).

Definition str_prim (k : key) : M key :=
  fun st => (Ret (KStr (str k)), mkState (store st) (trace st ++ [EvStr k])).

(** ** The class *)

Module StrKeyDict0.

(** [__missing__(self, key)]; [self_getitem] is [self[...]]. *)
Definition __missing__ (self_getitem : key -> M value) (key : key) : M value :=
  _ <- log (EvMissing key) ;;
  if isinstance_str key then raise (KeyError key)
  else s <- str_prim key ;; self_getitem s.

(** [self[key]]: the inherited [dict.__getitem__], which calls the
    [__missing__] hook of the subclass when the table has no such key.
    [fuel] bounds the depth of nested [self[...]] calls. *)
Fixpoint __getitem__ (fuel : nat) (key : key) : M value :=
  match fuel with
  | O => out_of_fuel
  | S fuel' =>
      r <- lookup_prim key ;;
      match r with
      | Some v => ret v
      | None => __missing__ (__getitem__ fuel') key
      end
  end.

(** [get(self, key, default=None)] *)
Definition get (fuel : nat) (key : key) (default : value) : M value :=
  try_except_KeyError (__getitem__ fuel key) (ret default).

(** [__contains__(self, __key)]; [or] evaluates its right operand only
    when the left one is false. *)
Definition __contains__ (__key : key) : M bool :=
  b <- keys_contains_prim __key ;;
  if b then ret true
  else s <- str_prim __key ;; keys_contains_prim s.

End StrKeyDict0.

Import StrKeyDict0.

(** Running a method on an instance holding [d], with nothing recorded
    yet. *)
Definition fresh (d : dict) : state := mkState d [].

(** [StrKeyDict0(pairs)]: a new instance, filled by the inherited
    [dict.__init__]. *)
Definition construct (pairs : list (key * value)) : state :=
  fresh (dict_init pairs).

(** [k] compares equal to one of the stored keys. *)
Definition stored (d : dict) (k : key) : Prop :=
  exists k', In k' (keys d) /\ py_eq k k' = true.

(** Events a membership test may produce when it consults the keys view
    only. *)
Definition keys_only (e : event) : bool :=
  match e with
  | EvKeysContains _ | EvStr _ => true
  | EvLookup _ | EvMissing _ => false
  end.

Definition is_str_event (e : event) : bool :=
  match e with EvStr _ => true | _ => false end.

Definition is_lookup_event (e : event) : bool :=
  match e with EvLookup _ => true | _ => false end.

Definition is_missing_event (e : event) : bool :=
  match e with EvMissing _ => true | _ => false end.

Definition count (p : event -> bool) (evs : list event) : nat :=
  List.length (filter p evs).

(** The last value paired with a key equal to [k] in a sequence of
    pairs. *)
Definition last_binding (pairs : list (key * value)) (k : key) : option value :=
  fold_left (fun acc kv => if py_eq k (fst kv) then Some (snd kv) else acc)
            pairs None.

(** The state after [evs] have been recorded on top of [st]. *)
Definition emit (st : state) (evs : list event) : state :=
  mkState (store st) (trace st ++ evs).

(** The four ways a lookup can go, once two nested calls are allowed. *)
Inductive getitem_run (st : state) (k : key) : outcome value * state -> Prop :=
| run_hit v :
    dict_lookup (store st) k = Some v ->
    getitem_run st k (Ret v, emit st [EvLookup k])
| run_miss_text :
    dict_lookup (store st) k = None ->
    isinstance_str k = true ->
    getitem_run st k (Raise (KeyError k), emit st [EvLookup k; EvMissing k])
| run_retry_hit v :
    dict_lookup (store st) k = None ->
    isinstance_str k = false ->
    dict_lookup (store st) (KStr (str k)) = Some v ->
    getitem_run st k
      (Ret v,
       emit st [EvLookup k; EvMissing k; EvStr k; EvLookup (KStr (str k))])
| run_retry_miss :
    dict_lookup (store st) k = None ->
    isinstance_str k = false ->
    dict_lookup (store st) (KStr (str k)) = None ->
    getitem_run st k
      (Raise (KeyError (KStr (str k))),
       emit st [EvLookup k; EvMissing k; EvStr k;
                EvLookup (KStr (str k)); EvMissing (KStr (str k))]).

(** [self[key] = value]: the inherited [dict.__setitem__], which the
    class does not override, acting on the instance. *)
Definition __setitem__ (key : key) (v : value) : M unit :=
  fun st => (Ret tt, mkState (dict_setitem (store st) key v) (trace st)).

(** Every stored key is a [str]. *)
Definition all_text (d : dict) : Prop :=
  Forall (fun k => isinstance_str k = true) (keys d).

(** No two keys of the list compare equal. *)
Fixpoint keys_distinct (ks : list key) : bool :=
  match ks with
  | [] => true
  | k :: ks' => negb (existsb (py_eq k) ks') && keys_distinct ks'
  end.

(** ** Key comparison is an equivalence *)

Lemma py_eq_refl (a : key) : py_eq a a = true.
Proof.
  destruct a as [s | s t | z | [|] |]; cbn [py_eq as_str as_int]; auto;
    try apply String.eqb_refl.
  apply Z.eqb_refl.
Qed.

Lemma py_eq_sym (a b : key) : py_eq a b = py_eq b a.
Proof.
  destruct a as [s | s s' | x | [|] |], b as [t | t t' | y | [|] |];
    cbn [py_eq as_str as_int]; auto;
    try apply String.eqb_sym; try apply Z.eqb_sym.
Qed.

Lemma py_eq_trans (a b c : key) :
  py_eq a b = true -> py_eq b c = true -> py_eq a c = true.
Proof.
  destruct a as [s | s s' | x | [|] |], b as [t | t t' | y | [|] |],
           c as [u | u u' | z | [|] |];
    cbn [py_eq as_str as_int]; try discriminate; auto;
    rewrite ?String.eqb_eq, ?Z.eqb_eq; intros; subst; auto; try lia.
Qed.

Lemma py_eq_congr (a b c : key) :
  py_eq a b = true -> py_eq c a = py_eq c b.
Proof.
  intros Hab.
  destruct (py_eq c a) eqn:Ha, (py_eq c b) eqn:Hb; auto.
  - rewrite (py_eq_trans c a b Ha Hab) in Hb. discriminate.
  - rewrite py_eq_sym in Hab.
    rewrite (py_eq_trans c b a Hb Hab) in Ha. discriminate.
Qed.

(** A text-typed key never compares equal to a key that is not. *)
Lemma py_eq_text_nontext (a n : key) :
  isinstance_str a = true -> isinstance_str n = false -> py_eq a n = false.
Proof.
  destruct a, n; cbn [py_eq as_str isinstance_str]; auto; discriminate.
Qed.

(** A text key never compares equal to a key that is not text. *)
Lemma py_eq_str_nonstr (s : string) (n : key) :
  isinstance_str n = false -> py_eq (KStr s) n = false.
Proof. now apply py_eq_text_nontext. Qed.

Lemma text_differs (k : key) : isinstance_str k = false -> KStr (str k) <> k.
Proof. destruct k; simpl; intros; discriminate. Qed.

(** ** The table *)

Lemma lookup_congr (d : dict) (a b : key) :
  py_eq a b = true -> dict_lookup d a = dict_lookup d b.
Proof.
  intros E. induction d as [| [k' v] d IH]; simpl; auto.
  rewrite (py_eq_sym a k'), (py_eq_sym b k'), (py_eq_congr a b k' E).
  now rewrite IH.
Qed.

Lemma keys_contains_lookup (d : dict) (k : key) :
  keys_contains d k = true <-> dict_lookup d k <> None.
Proof.
  unfold keys_contains, keys.
  induction d as [| [k' v] d IH]; simpl.
  - split; [discriminate | congruence].
  - destruct (py_eq k k'); simpl; auto.
    split; [discriminate | reflexivity].
Qed.

Lemma keys_contains_false (d : dict) (k : key) :
  keys_contains d k = false <-> dict_lookup d k = None.
Proof.
  pose proof (keys_contains_lookup d k) as H.
  destruct (keys_contains d k), (dict_lookup d k); split; intros; auto;
    try discriminate.
  - exfalso. apply (proj1 H); auto.
  - assert (false = true) by (apply H; discriminate). discriminate.
Qed.

Lemma keys_contains_stored (d : dict) (k : key) :
  keys_contains d k = true <-> stored d k.
Proof.
  unfold keys_contains, stored. rewrite existsb_exists. tauto.
Qed.

Lemma lookup_setitem (d : dict) (k k' : key) (v : value) :
  dict_lookup (dict_setitem d k v) k' =
  if py_eq k' k then Some v else dict_lookup d k'.
Proof.
  induction d as [| [k0 v0] d IH]; simpl.
  - reflexivity.
  - destruct (py_eq k k0) eqn:E; simpl.
    + rewrite (py_eq_congr k k0 k' E).
      destruct (py_eq k' k0); reflexivity.
    + destruct (py_eq k' k0) eqn:E'.
      * destruct (py_eq k' k) eqn:E''; auto.
        rewrite py_eq_sym in E''.
        rewrite (py_eq_trans k k' k0 E'' E') in E. discriminate.
      * apply IH.
Qed.

Lemma keys_setitem (d : dict) (k : key) (v : value) (k0 : key) :
  In k0 (keys (dict_setitem d k v)) -> In k0 (keys d) \/ k0 = k.
Proof.
  unfold keys.
  induction d as [| [k1 v1] d IH]; simpl.
  - intros [H | []]. now right.
  - destruct (py_eq k k1); simpl; intros [H | H]; auto.
    destruct (IH H); auto.
Qed.

Lemma dict_init_snoc (pairs : list (key * value)) (k : key) (v : value) :
  dict_init (pairs ++ [(k, v)]) = dict_setitem (dict_init pairs) k v.
Proof. unfold dict_init. now rewrite fold_left_app. Qed.

Lemma lookup_init (pairs : list (key * value)) (k : key) :
  dict_lookup (dict_init pairs) k = last_binding pairs k.
Proof.
  induction pairs as [| [k0 v0] pairs IH] using rev_ind.
  - reflexivity.
  - rewrite dict_init_snoc, lookup_setitem, IH.
    unfold last_binding. now rewrite fold_left_app.
Qed.

Lemma keys_init (pairs : list (key * value)) (k : key) :
  In k (keys (dict_init pairs)) -> In k (map fst pairs).
Proof.
  induction pairs as [| [k0 v0] pairs IH] using rev_ind.
  - intros [].
  - rewrite dict_init_snoc, map_app, in_app_iff. simpl.
    intros H. destruct (keys_setitem _ _ _ _ H); auto.
Qed.

Lemma last_binding_absent (pairs : list (key * value)) (k : key) :
  (forall kv, In kv pairs -> py_eq k (fst kv) = false) ->
  forall acc,
    fold_left (fun acc kv => if py_eq k (fst kv) then Some (snd kv) else acc)
              pairs acc = acc.
Proof.
  induction pairs as [| kv pairs IH]; simpl; intros H acc.
  - reflexivity.
  - rewrite (H kv) by auto. apply IH. intros; apply H; auto.
Qed.

Lemma last_binding_split (ps1 ps2 : list (key * value)) (k : key) (v : value) :
  (forall kv, In kv ps2 -> py_eq k (fst kv) = false) ->
  last_binding (ps1 ++ (k, v) :: ps2) k = Some v.
Proof.
  intros H. unfold last_binding.
  rewrite fold_left_app. simpl. rewrite py_eq_refl.
  now apply last_binding_absent.
Qed.

(** ** How [self[key]] unfolds *)

Lemma emit_emit (st : state) (a b : list event) :
  emit (emit st a) b = emit st (a ++ b).
Proof. unfold emit. simpl. now rewrite app_assoc. Qed.

Lemma store_emit (st : state) (evs : list event) :
  store (emit st evs) = store st.
Proof. reflexivity. Qed.

Lemma getitem_hit (n : nat) (st : state) (k : key) (v : value) :
  dict_lookup (store st) k = Some v ->
  __getitem__ (S n) k st = (Ret v, emit st [EvLookup k]).
Proof.
  intros H. simpl. unfold bind, lookup_prim. now rewrite H.
Qed.

Lemma getitem_miss_text (n : nat) (st : state) (k : key) :
  dict_lookup (store st) k = None ->
  isinstance_str k = true ->
  __getitem__ (S n) k st = (Raise (KeyError k), emit st [EvLookup k; EvMissing k]).
Proof.
  intros H T. simpl. unfold bind, lookup_prim, __missing__, bind, log.
  rewrite H, T. unfold raise, emit. simpl. now rewrite <- app_assoc.
Qed.

Lemma getitem_miss_retry (n : nat) (st : state) (k : key) :
  dict_lookup (store st) k = None ->
  isinstance_str k = false ->
  __getitem__ (S n) k st =
  __getitem__ n (KStr (str k)) (emit st [EvLookup k; EvMissing k; EvStr k]).
Proof.
  intros H T. simpl. unfold bind, lookup_prim, __missing__, bind, log, str_prim.
  rewrite H, T. unfold emit. simpl. now rewrite <- !app_assoc.
Qed.

Lemma getitem_runs (n : nat) (st : state) (k : key) :
  getitem_run st k (__getitem__ (S (S n)) k st).
Proof.
  destruct (dict_lookup (store st) k) as [v |] eqn:L.
  - rewrite (getitem_hit _ _ _ _ L). now constructor.
  - destruct (isinstance_str k) eqn:T.
    + rewrite (getitem_miss_text _ _ _ L T). now constructor.
    + rewrite (getitem_miss_retry _ _ _ L T).
      destruct (dict_lookup (store st) (KStr (str k))) as [v |] eqn:L2.
      * rewrite getitem_hit with (v := v) by exact L2.
        rewrite emit_emit. now apply run_retry_hit.
      * rewrite getitem_miss_text by (auto; exact L2).
        rewrite emit_emit. now apply run_retry_miss.
Qed.

Lemma contains_unfold (st : state) (k : key) :
  __contains__ k st =
  if keys_contains (store st) k
  then (Ret true, emit st [EvKeysContains k])
  else (Ret (keys_contains (store st) (KStr (str k))),
        emit st [EvKeysContains k; EvStr k; EvKeysContains (KStr (str k))]).
Proof.
  unfold __contains__, bind, keys_contains_prim, str_prim, ret, emit.
  simpl. destruct (keys_contains (store st) k); simpl.
  - reflexivity.
  - now rewrite <- !app_assoc.
Qed.

(** ** The lookup contract *)

(** C1.  When the table has no entry for [k]: if [k] is text, [self[k]]
    raises [KeyError] carrying [k] itself; if [k] is not text and the
    table has no entry for [str(k)] either, [self[k]] raises [KeyError]
    carrying the text [str(k)], which is a different key from [k]. *)
Theorem getitem_miss_reports (n : nat) (st : state) (k : key) :
  dict_lookup (store st) k = None ->
  (isinstance_str k = true ->
     fst (__getitem__ (S n) k st) = Raise (KeyError k)) /\
  (isinstance_str k = false ->
   dict_lookup (store st) (KStr (str k)) = None ->
     fst (__getitem__ (S (S n)) k st) = Raise (KeyError (KStr (str k))) /\
     KeyError (KStr (str k)) <> KeyError k).
Proof.
  intros L. split.
  - intros T. now rewrite (getitem_miss_text n st k L T).
  - intros T L2. split.
    + rewrite (getitem_miss_retry _ st k L T).
      rewrite getitem_miss_text by (auto; exact L2). reflexivity.
    + intros E. injection E. now apply text_differs.
Qed.

Lemma getitem_miss_reports_witness :
  fst (__getitem__ 1 (KStr "1")
         (construct [(KStr "2", VStr "two"); (KStr "4", VStr "four")]))
    = Raise (KeyError (KStr "1")) /\
  fst (__getitem__ 2 (KInt 1)
         (construct [(KStr "2", VStr "two"); (KStr "4", VStr "four")]))
    = Raise (KeyError (KStr "1")).
Proof.
  split.
  - apply (proj1 (getitem_miss_reports 0
             (construct [(KStr "2", VStr "two"); (KStr "4", VStr "four")])
             (KStr "1") eq_refl)).
    reflexivity.
  - apply (proj2 (getitem_miss_reports 0
             (construct [(KStr "2", VStr "two"); (KStr "4", VStr "four")])
             (KInt 1) eq_refl)); reflexivity.
Defined.

(** C2.  If the table holds [v] under the text key [k], and [n] is a
    key that is not text, whose text form is [k], and under which the
    table holds nothing other than [v], then [self[n]] and [self[k]]
    both return [v]. *)
Theorem getitem_nontext_as_text
    (m : nat) (st : state) (k : string) (v : value) (n : key) :
  dict_lookup (store st) (KStr k) = Some v ->
  isinstance_str n = false ->
  str n = k ->
  (forall w, dict_lookup (store st) n = Some w -> w = v) ->
  fst (__getitem__ (S (S m)) n st) = Ret v /\
  fst (__getitem__ (S (S m)) (KStr k) st) = Ret v /\
  fst (__getitem__ (S (S m)) n st) = fst (__getitem__ (S (S m)) (KStr k) st).
Proof.
  intros Lk T E Hn.
  assert (Hk : fst (__getitem__ (S (S m)) (KStr k) st) = Ret v)
    by now rewrite (getitem_hit _ st (KStr k) v Lk).
  assert (Hv : fst (__getitem__ (S (S m)) n st) = Ret v).
  { destruct (dict_lookup (store st) n) as [w |] eqn:Ln.
    - rewrite (getitem_hit _ st n w Ln). simpl. f_equal. now apply Hn.
    - rewrite (getitem_miss_retry _ st n Ln T), E.
      now rewrite getitem_hit with (v := v) by exact Lk. }
  rewrite Hv, Hk. auto.
Qed.

Lemma getitem_nontext_as_text_witness :
  fst (__getitem__ 2 (KInt 4)
         (construct [(KStr "2", VStr "two"); (KStr "4", VStr "four")]))
    = Ret (VStr "four") /\
  fst (__getitem__ 2 (KStr "4")
         (construct [(KStr "2", VStr "two"); (KStr "4", VStr "four")]))
    = Ret (VStr "four").
Proof.
  pose proof (getitem_nontext_as_text 0
                (construct [(KStr "2", VStr "two"); (KStr "4", VStr "four")])
                "4" (VStr "four") (KInt 4)
                eq_refl eq_refl eq_refl) as H.
  simpl in H.
  destruct H as (H1 & H2 & _); [intros w Hw; discriminate Hw |].
  split; [exact H1 | exact H2].
Defined.

(** C3.  [key in self] returns normally, with [True] exactly when [key]
    compares equal to a stored key or the text [str(key)] does; the
    only things it evaluates are tests on the keys view and [str], never
    a table lookup by [self[...]] nor the [__missing__] hook. *)
Theorem contains_stored_or_text_stored (st : state) (k : key) :
  exists b evs,
    __contains__ k st = (Ret b, emit st evs) /\
    (b = true <->
       stored (store st) k \/ stored (store st) (KStr (str k))) /\
    forallb keys_only evs = true.
Proof.
  rewrite contains_unfold.
  destruct (keys_contains (store st) k) eqn:C1.
  - exists true, [EvKeysContains k]. repeat split; auto.
    intros _. left. now apply keys_contains_stored.
  - exists (keys_contains (store st) (KStr (str k))),
      [EvKeysContains k; EvStr k; EvKeysContains (KStr (str k))].
    repeat split; auto.
    + intros H. right. now apply keys_contains_stored.
    + intros [H | H]; apply keys_contains_stored in H; congruence.
Qed.

(** C4.  [self.get(key, default)] resolves [key] exactly as [self[key]]
    does, evaluating the same steps; it returns the value [self[key]]
    returns, returns [default] where [self[key]] raises [KeyError], and
    itself always returns a value and never raises. *)
Theorem get_recovers_KeyError (n : nat) (st : state) (k : key) (dflt : value) :
  get (S (S n)) k dflt st =
    (match fst (__getitem__ (S (S n)) k st) with
     | Ret v => Ret v
     | Raise (KeyError _) => Ret dflt
     | OutOfFuel => OutOfFuel
     end,
     snd (__getitem__ (S (S n)) k st)) /\
  (exists v, fst (get (S (S n)) k dflt st) = Ret v) /\
  (forall e, fst (get (S (S n)) k dflt st) <> Raise e).
Proof.
  unfold get, try_except_KeyError, ret.
  destruct (getitem_runs n st k); simpl; repeat split; eauto; discriminate.
Qed.

(** C5.  [self[key]] begins with a table lookup of [key] as given; when
    that finds a value it is returned and nothing else is evaluated, in
    particular not [str].  So when the table holds [v] under a key [n]
    that is not text and a different [w] under [str(n)], [self[n]]
    returns [v] and not [w]. *)
Theorem getitem_direct_first (n : nat) (st : state) (k : key) :
  (exists evs,
     trace (snd (__getitem__ (S n) k st)) = trace st ++ EvLookup k :: evs) /\
  (forall v, dict_lookup (store st) k = Some v ->
     __getitem__ (S n) k st = (Ret v, emit st [EvLookup k])) /\
  (forall v w,
     isinstance_str k = false ->
     dict_lookup (store st) k = Some v ->
     dict_lookup (store st) (KStr (str k)) = Some w ->
     v <> w ->
     fst (__getitem__ (S n) k st) = Ret v /\
     fst (__getitem__ (S n) k st) <> Ret w).
Proof.
  split; [| split].
  - destruct (dict_lookup (store st) k) as [v |] eqn:L.
    + rewrite (getitem_hit _ st k v L). now exists [].
    + destruct (isinstance_str k) eqn:T.
      * rewrite (getitem_miss_text _ st k L T). now exists [EvMissing k].
      * rewrite (getitem_miss_retry _ st k L T).
        destruct n as [| n].
        -- now exists [EvMissing k; EvStr k].
        -- destruct (getitem_runs 0 (emit st [EvLookup k; EvMissing k; EvStr k])
                       (KStr (str k))) as [v ? | ? ? | v ? ? ? | ? ? ?];
             try discriminate.
           ++ rewrite getitem_hit with (v := v) by assumption.
              rewrite emit_emit. simpl. eauto.
           ++ rewrite getitem_miss_text by assumption.
              rewrite emit_emit. simpl. eauto.
  - intros v L. now apply getitem_hit.
  - intros v w T L L2 D. rewrite (getitem_hit _ st k v L). simpl.
    split; [reflexivity | congruence].
Qed.

Lemma getitem_direct_first_witness :
  fst (__getitem__ 1 (KInt 4)
         (construct [(KStr "4", VStr "four"); (KInt 4, VInt 4)]))
    = Ret (VInt 4) /\
  fst (__getitem__ 1 (KInt 4)
         (construct [(KStr "4", VStr "four"); (KInt 4, VInt 4)]))
    <> Ret (VStr "four").
Proof.
  apply (proj2 (proj2 (getitem_direct_first 0
           (construct [(KStr "4", VStr "four"); (KInt 4, VInt 4)]) (KInt 4)))
           (VInt 4) (VStr "four")); try reflexivity.
  discriminate.
Defined.

(** ** Construction *)

(** C6.  Build an instance from pairs among which [(n, v)], with [n] not
    text, is the last pair whose key equals [n].  Every stored key is one
    of the supplied keys (none is turned into text), and a key equal to
    [n] that is not text is stored.  Then [self[n]] returns [v] after the
    one table lookup, while [self[str(n)]] raises [KeyError] carrying
    [str(n)] when none of the supplied keys equals the text [str(n)],
    and otherwise returns what was last supplied under [str(n)]. *)
Theorem construction_keeps_keys_as_given
    (m : nat) (ps1 ps2 : list (key * value)) (n : key) (v : value) :
  isinstance_str n = false ->
  (forall kv, In kv ps2 -> py_eq n (fst kv) = false) ->
  (forall k, In k (keys (store (construct (ps1 ++ (n, v) :: ps2)))) ->
             In k (map fst (ps1 ++ (n, v) :: ps2))) /\
  (exists k', In k' (keys (store (construct (ps1 ++ (n, v) :: ps2)))) /\
              py_eq n k' = true /\ isinstance_str k' = false) /\
  __getitem__ (S m) n (construct (ps1 ++ (n, v) :: ps2)) =
    (Ret v, emit (construct (ps1 ++ (n, v) :: ps2)) [EvLookup n]) /\
  ((forall kv, In kv (ps1 ++ (n, v) :: ps2) ->
               py_eq (KStr (str n)) (fst kv) = false) ->
   fst (__getitem__ (S m) (KStr (str n)) (construct (ps1 ++ (n, v) :: ps2)))
     = Raise (KeyError (KStr (str n)))) /\
  (forall w, last_binding (ps1 ++ (n, v) :: ps2) (KStr (str n)) = Some w ->
   fst (__getitem__ (S m) (KStr (str n)) (construct (ps1 ++ (n, v) :: ps2)))
     = Ret w).
Proof.
  intros T Hlast.
  set (ps := ps1 ++ (n, v) :: ps2).
  assert (L : dict_lookup (store (construct ps)) n = Some v).
  { simpl. rewrite lookup_init. now apply last_binding_split. }
  split; [| split; [| split; [| split]]].
  - intros k. simpl. apply keys_init.
  - assert (S : stored (store (construct ps)) n).
    { apply keys_contains_stored, keys_contains_lookup. congruence. }
    destruct S as (k' & Hin & E). exists k'. repeat split; auto.
    destruct (isinstance_str k') eqn:T'; auto.
    rewrite py_eq_sym, (py_eq_text_nontext k' n T' T) in E. discriminate.
  - now apply getitem_hit.
  - intros Hnot.
    rewrite getitem_miss_text; auto.
    simpl. rewrite lookup_init. unfold last_binding.
    now apply last_binding_absent.
  - intros w Hw. rewrite getitem_hit with (v := w); auto.
    simpl. now rewrite lookup_init.
Qed.

Lemma construction_keeps_keys_as_given_witness :
  __getitem__ 1 (KInt 4) (construct [(KStr "2", VStr "two"); (KInt 4, VInt 4)])
    = (Ret (VInt 4),
       emit (construct [(KStr "2", VStr "two"); (KInt 4, VInt 4)])
            [EvLookup (KInt 4)]) /\
  fst (__getitem__ 1 (KStr "4")
         (construct [(KStr "2", VStr "two"); (KInt 4, VInt 4)]))
    = Raise (KeyError (KStr "4")).
Proof.
  assert (H : forall kv : key * value,
             In kv [] -> py_eq (KInt 4) (fst kv) = false)
    by (intros kv []).
  destruct (construction_keeps_keys_as_given 0
              [(KStr "2", VStr "two")] [] (KInt 4) (VInt 4) eq_refl H)
    as (_ & _ & Hn & Hs & _).
  split; [exact Hn |].
  apply Hs. intros kv [E | [E | []]]; subst kv; reflexivity.
Defined.

(** ** The doctest *)

(** C7.  On [StrKeyDict0([('2', 'two'), ('4', 'four')])]: [d['2']] is
    ['two'], [d[4]] is ['four'], [d[1]] raises [KeyError('1')],
    [d.get(4)] is ['four'], [d.get(1, 'N/A')] is ['N/A'], [2 in d] is
    [True] and [1 in d] is [False]. *)
Theorem doctest_scenario (n : nat) :
  fst (__getitem__ (S (S n)) (KStr "2")
         (construct [(KStr "2", VStr "two"); (KStr "4", VStr "four")]))
    = Ret (VStr "two") /\
  fst (__getitem__ (S (S n)) (KInt 4)
         (construct [(KStr "2", VStr "two"); (KStr "4", VStr "four")]))
    = Ret (VStr "four") /\
  fst (__getitem__ (S (S n)) (KInt 1)
         (construct [(KStr "2", VStr "two"); (KStr "4", VStr "four")]))
    = Raise (KeyError (KStr "1")) /\
  fst (get (S (S n)) (KStr "2") VNone
         (construct [(KStr "2", VStr "two"); (KStr "4", VStr "four")]))
    = Ret (VStr "two") /\
  fst (get (S (S n)) (KInt 4) VNone
         (construct [(KStr "2", VStr "two"); (KStr "4", VStr "four")]))
    = Ret (VStr "four") /\
  fst (get (S (S n)) (KInt 1) (VStr "N/A")
         (construct [(KStr "2", VStr "two"); (KStr "4", VStr "four")]))
    = Ret (VStr "N/A") /\
  fst (__contains__ (KInt 2)
         (construct [(KStr "2", VStr "two"); (KStr "4", VStr "four")]))
    = Ret true /\
  fst (__contains__ (KInt 1)
         (construct [(KStr "2", VStr "two"); (KStr "4", VStr "four")]))
    = Ret false.
Proof. repeat split; reflexivity. Qed.

(** ** Reads leave the table alone *)

Lemma getitem_store (fuel : nat) :
  forall (st : state) (k : key),
    store (snd (__getitem__ fuel k st)) = store st.
Proof.
  induction fuel as [| fuel IH]; intros st k.
  - reflexivity.
  - destruct (dict_lookup (store st) k) as [v |] eqn:L.
    + now rewrite (getitem_hit _ st k v L).
    + destruct (isinstance_str k) eqn:T.
      * now rewrite (getitem_miss_text _ st k L T).
      * rewrite (getitem_miss_retry _ st k L T). now rewrite IH.
Qed.

(** C8.  Whatever the table, the key, the default and the depth
    allowed, and whether they return or raise, [self[key]],
    [self.get(key, default)] and [key in self] end with the very table
    they started with: same pairs, same order. *)
Theorem reads_leave_store_unchanged
    (fuel : nat) (st : state) (k : key) (dflt : value) :
  store (snd (__getitem__ fuel k st)) = store st /\
  store (snd (get fuel k dflt st)) = store st /\
  store (snd (__contains__ k st)) = store st.
Proof.
  split; [| split].
  - apply getitem_store.
  - pose proof (getitem_store fuel st k) as H.
    unfold get, try_except_KeyError, ret.
    destruct (__getitem__ fuel k st) as [[v | [e] |] st']; exact H.
  - rewrite contains_unfold.
    destruct (keys_contains (store st) k); reflexivity.
Qed.

(** ** Termination *)

(** C9.  With room for two nested [self[...]] calls, [self[key]] always
    finishes, returning or raising, and more room changes nothing.  A
    run evaluates [str] at most once, makes at most two table lookups
    and enters [__missing__] at most twice.  For a text key, which is
    what the nested call receives, a single call suffices and [str] is
    never evaluated. *)
Theorem getitem_terminates (n : nat) (st : state) (k : key) :
  exists r evs,
    __getitem__ (S (S n)) k st = (r, emit st evs) /\
    r <> OutOfFuel /\
    __getitem__ 2 k st = (r, emit st evs) /\
    count is_str_event evs <= 1 /\
    count is_lookup_event evs <= 2 /\
    count is_missing_event evs <= 2 /\
    isinstance_str (KStr (str k)) = true /\
    (isinstance_str k = true ->
       __getitem__ 1 k st = (r, emit st evs) /\
       count is_str_event evs = 0).
Proof.
  destruct (getitem_runs n st k) as [v L | L T | v L T L2 | L T L2];
    do 2 eexists; (split; [reflexivity |]);
    (split; [discriminate |]).
  - rewrite (getitem_hit _ st k v L).
    repeat split; try (cbn; auto; fail).
    now apply getitem_hit.
  - rewrite (getitem_miss_text _ st k L T).
    repeat split; try (cbn; auto; fail).
    now apply getitem_miss_text.
  - rewrite (getitem_miss_retry _ st k L T).
    rewrite getitem_hit with (v := v) by exact L2. rewrite emit_emit.
    repeat split; try (cbn; auto; fail); congruence.
  - rewrite (getitem_miss_retry _ st k L T).
    rewrite getitem_miss_text by (auto; exact L2). rewrite emit_emit.
    repeat split; try (cbn; auto; fail); congruence.
Qed.

(** ** Membership against lookup *)

(** C10, refuted as stated.  With ['Color.RED'] stored, a text-typed
    key whose [str()] is ['Color.RED'] but which compares as ['red'] is
    reported present by [key in self], while [self[key]] raises
    [KeyError] carrying the key: [__contains__] tries [str(key)] for
    every key, [__missing__] only for keys that are not text. *)
Lemma contains_true_but_getitem_raises :
  (fst (__contains__ (KStrSub "red" "Color.RED")
          (construct [(KStr "Color.RED", VStr "x")])) = Ret true /\
   fst (__getitem__ 2 (KStrSub "red" "Color.RED")
          (construct [(KStr "Color.RED", VStr "x")]))
     = Raise (KeyError (KStrSub "red" "Color.RED"))) /\
  ~ (forall (n : nat) (st : state) (k : key),
       fst (__contains__ k st) = Ret true <->
       exists v, fst (__getitem__ (S (S n)) k st) = Ret v).
Proof.
  split; [split; reflexivity |].
  intros H.
  destruct (proj1 (H 0 (construct [(KStr "Color.RED", VStr "x")])
                     (KStrSub "red" "Color.RED")) eq_refl) as [v Hv].
  discriminate Hv.
Qed.

(** C10, as amended.  Whenever [self[key]] returns a value, [key in
    self] is [True].  For a key that is not text, and for a text key
    whose [str()] compares equal to the key itself, the two agree
    exactly: [key in self] is [True] when [self[key]] returns a value
    and [False] when it raises. *)
Theorem contains_agrees_with_getitem (n : nat) (st : state) (k : key) :
  ((exists v, fst (__getitem__ (S (S n)) k st) = Ret v) ->
   fst (__contains__ k st) = Ret true) /\
  (isinstance_str k = false \/ py_eq (KStr (str k)) k = true ->
   fst (__contains__ k st) =
     Ret (match fst (__getitem__ (S (S n)) k st) with
          | Ret _ => true
          | _ => false
          end) /\
   (fst (__contains__ k st) = Ret true <->
    exists v, fst (__getitem__ (S (S n)) k st) = Ret v)).
Proof.
  assert (Hit : forall v, dict_lookup (store st) k = Some v ->
                          keys_contains (store st) k = true)
    by (intros v L; apply keys_contains_lookup; congruence).
  split.
  - intros [v Hv]. revert Hv. rewrite contains_unfold.
    destruct (getitem_runs n st k) as [w L | L T | w L T L2 | L T L2];
      simpl; try discriminate; intros _.
    + now rewrite (Hit w L).
    + apply keys_contains_false in L. rewrite L. simpl.
      assert (C : keys_contains (store st) (KStr (str k)) = true)
        by (apply keys_contains_lookup; congruence).
      now rewrite C.
  - intros Hk.
    assert (E : fst (__contains__ k st) =
                Ret (match fst (__getitem__ (S (S n)) k st) with
                     | Ret _ => true
                     | _ => false
                     end)).
    { rewrite contains_unfold.
      destruct (getitem_runs n st k) as [v L | L T | v L T L2 | L T L2];
        simpl.
      - now rewrite (Hit v L).
      - destruct Hk as [Hk | Hk]; [congruence |].
        assert (L2 : dict_lookup (store st) (KStr (str k)) = None)
          by now rewrite (lookup_congr _ _ _ Hk).
        apply keys_contains_false in L. apply keys_contains_false in L2.
        now rewrite L, L2.
      - apply keys_contains_false in L. rewrite L. simpl.
        assert (C : keys_contains (store st) (KStr (str k)) = true)
          by (apply keys_contains_lookup; congruence).
        now rewrite C.
      - apply keys_contains_false in L. apply keys_contains_false in L2.
        now rewrite L, L2. }
    split; [exact E |].
    rewrite E.
    destruct (fst (__getitem__ (S (S n)) k st)) as [v | e |]; split.
    + eauto.
    + reflexivity.
    + discriminate.
    + intros [v H]. discriminate.
    + discriminate.
    + intros [v H]. discriminate.
Qed.

Lemma contains_agrees_with_getitem_witness :
  fst (__contains__ (KInt 1)
         (construct [(KStr "2", VStr "two"); (KStr "4", VStr "four")])) =
    Ret (match fst (__getitem__ 2 (KInt 1)
                      (construct [(KStr "2", VStr "two");
                                  (KStr "4", VStr "four")])) with
         | Ret _ => true
         | _ => false
         end) /\
  (fst (__contains__ (KInt 1)
          (construct [(KStr "2", VStr "two"); (KStr "4", VStr "four")]))
     = Ret true <->
   exists v,
     fst (__getitem__ 2 (KInt 1)
            (construct [(KStr "2", VStr "two"); (KStr "4", VStr "four")]))
       = Ret v).
Proof.
  apply (proj2 (contains_agrees_with_getitem 0
                  (construct [(KStr "2", VStr "two"); (KStr "4", VStr "four")])
                  (KInt 1))).
  left. reflexivity.
Defined.

(** ** Further properties of the three methods *)

Lemma keys_contains_as_lookup (d : dict) (k : key) :
  keys_contains d k =
  match dict_lookup d k with Some _ => true | None => false end.
Proof.
  unfold keys_contains, keys.
  induction d as [| [k' v] d IH]; simpl; auto.
  destruct (py_eq k k'); simpl; auto.
Qed.

(** What [self[k]] gives for a text key is read off the table. *)
Lemma getitem_text_fst (fuel : nat) (st : state) (k : key) :
  isinstance_str k = true ->
  fst (__getitem__ (S fuel) k st) =
  match dict_lookup (store st) k with
  | Some v => Ret v
  | None => Raise (KeyError k)
  end.
Proof.
  intros T. destruct (dict_lookup (store st) k) as [v |] eqn:L.
  - now rewrite (getitem_hit _ st k v L).
  - now rewrite (getitem_miss_text _ st k L T).
Qed.

(** What [self[k]] gives, with two nested calls allowed, is read off
    the table. *)
Lemma getitem_fst (n : nat) (st : state) (k : key) :
  fst (__getitem__ (S (S n)) k st) =
  match dict_lookup (store st) k with
  | Some v => Ret v
  | None =>
      if isinstance_str k then Raise (KeyError k)
      else match dict_lookup (store st) (KStr (str k)) with
           | Some v => Ret v
           | None => Raise (KeyError (KStr (str k)))
           end
  end.
Proof.
  destruct (getitem_runs n st k) as [v L | L T | v L T L2 | L T L2]; simpl.
  - now rewrite L.
  - now rewrite L, T.
  - now rewrite L, T, L2.
  - now rewrite L, T, L2.
Qed.

Lemma get_fst (n : nat) (st : state) (k : key) (dflt : value) :
  fst (get (S (S n)) k dflt st) =
  Ret (match dict_lookup (store st) k with
       | Some v => v
       | None =>
           if isinstance_str k then dflt
           else match dict_lookup (store st) (KStr (str k)) with
                | Some v => v
                | None => dflt
                end
       end).
Proof.
  pose proof (getitem_fst n st k) as H.
  unfold get, try_except_KeyError, ret.
  destruct (__getitem__ (S (S n)) k st) as [[v | [e] |] st']; simpl in *;
    destruct (dict_lookup (store st) k);
    destruct (isinstance_str k);
    try destruct (dict_lookup (store st) (KStr (str k)));
    congruence.
Qed.

Lemma contains_fst (st : state) (k : key) :
  fst (__contains__ k st) =
  Ret (match dict_lookup (store st) k with
       | Some _ => true
       | None =>
           match dict_lookup (store st) (KStr (str k)) with
           | Some _ => true
           | None => false
           end
       end).
Proof.
  rewrite contains_unfold, !keys_contains_as_lookup.
  destruct (dict_lookup (store st) k); reflexivity.
Qed.

Lemma contains_store (st : state) (k : key) :
  store (snd (__contains__ k st)) = store st.
Proof.
  rewrite contains_unfold. destruct (keys_contains (store st) k); reflexivity.
Qed.


(** X1.  When [k] is not text and the table has no entry for it,
    [self[k]] ends exactly as [self[str(k)]] does: with the same value,
    or with the same [KeyError]. *)
Theorem getitem_unstored_as_text_form (n : nat) (st : state) (k : key) :
  isinstance_str k = false ->
  dict_lookup (store st) k = None ->
  fst (__getitem__ (S (S n)) k st) =
  fst (__getitem__ (S (S n)) (KStr (str k)) st).
Proof.
  intros T L. rewrite (getitem_fst n st k), L, T.
  rewrite getitem_text_fst by reflexivity. reflexivity.
Qed.

Lemma getitem_unstored_as_text_form_witness :
  fst (__getitem__ 2 (KInt 1)
         (construct [(KStr "2", VStr "two"); (KStr "4", VStr "four")])) =
  fst (__getitem__ 2 (KStr "1")
         (construct [(KStr "2", VStr "two"); (KStr "4", VStr "four")])).
Proof.
  apply (getitem_unstored_as_text_form 0
           (construct [(KStr "2", VStr "two"); (KStr "4", VStr "four")])
           (KInt 1));
    reflexivity.
Defined.

(** X2.  A [KeyError] raised by [self[k]] carries [k] itself when [k]
    is text-typed and the text [str(k)] otherwise, so the key it
    carries is always text-typed.  It is raised only when the table has
    no entry for [k] nor, when [k] is not text, for [str(k)]. *)
Theorem getitem_error_carries_text_key
    (n : nat) (st : state) (k : key) (e : exn) :
  fst (__getitem__ (S (S n)) k st) = Raise e ->
  e = KeyError (if isinstance_str k then k else KStr (str k)) /\
  (exists k', e = KeyError k' /\ isinstance_str k' = true) /\
  dict_lookup (store st) k = None /\
  (isinstance_str k = false ->
   dict_lookup (store st) (KStr (str k)) = None).
Proof.
  rewrite getitem_fst.
  destruct (dict_lookup (store st) k); [discriminate |].
  destruct (isinstance_str k) eqn:T.
  - intros H. injection H as <-. repeat split; eauto; discriminate.
  - destruct (dict_lookup (store st) (KStr (str k))); [discriminate |].
    intros H. injection H as <-. repeat split; eauto.
Qed.

Lemma getitem_error_carries_text_key_witness :
  KeyError (KStrSub "red" "Color.RED") =
    KeyError (if isinstance_str (KStrSub "red" "Color.RED")
              then KStrSub "red" "Color.RED"
              else KStr (str (KStrSub "red" "Color.RED"))) /\
  (exists k', KeyError (KStrSub "red" "Color.RED") = KeyError k' /\
              isinstance_str k' = true) /\
  dict_lookup (store (construct [(KStr "Color.RED", VStr "x")]))
    (KStrSub "red" "Color.RED") = None /\
  (isinstance_str (KStrSub "red" "Color.RED") = false ->
   dict_lookup (store (construct [(KStr "Color.RED", VStr "x")]))
     (KStr (str (KStrSub "red" "Color.RED"))) = None).
Proof.
  apply (getitem_error_carries_text_key 0
           (construct [(KStr "Color.RED", VStr "x")])
           (KStrSub "red" "Color.RED") (KeyError (KStrSub "red" "Color.RED"))).
  reflexivity.
Defined.

(** X3.  [self.get(k, default)] returns the value stored under [k] if
    there is one; else, when [k] is not text, the value stored under
    [str(k)] if there is one; else [default].  A text-typed [k] that is
    not stored gets [default] even when [str(k)] is stored. *)
Theorem get_is_two_tier_lookup
    (n : nat) (st : state) (k : key) (dflt : value) :
  fst (get (S (S n)) k dflt st) =
  Ret (match dict_lookup (store st) k with
       | Some v => v
       | None =>
           if isinstance_str k then dflt
           else match dict_lookup (store st) (KStr (str k)) with
                | Some v => v
                | None => dflt
                end
       end).
Proof. apply get_fst. Qed.

(** X4.  After [k in self] has answered [False], [self[k]] raises
    [KeyError], carrying [k] if it is text-typed and [str(k)] otherwise,
    and [self.get(k, default)] returns [default].  After it has
    answered [True] for a key that is not text, [self[k]] returns a
    value and [self.get(k, default)] returns that value whatever the
    default. *)
Theorem contains_then_lookup
    (n : nat) (st : state) (k : key) (dflt : value) (b : bool) :
  fst (__contains__ k st) = Ret b ->
  if b
  then isinstance_str k = false ->
       exists v,
         fst (__getitem__ (S (S n)) k (snd (__contains__ k st))) = Ret v /\
         fst (get (S (S n)) k dflt (snd (__contains__ k st))) = Ret v
  else fst (__getitem__ (S (S n)) k (snd (__contains__ k st)))
         = Raise (KeyError (if isinstance_str k then k else KStr (str k))) /\
       fst (get (S (S n)) k dflt (snd (__contains__ k st))) = Ret dflt.
Proof.
  rewrite getitem_fst, get_fst, contains_store, contains_fst.
  intros H. injection H as <-.
  destruct (dict_lookup (store st) k) as [v |]; [eauto |].
  destruct (dict_lookup (store st) (KStr (str k))) as [v |].
  - intros ->. eauto.
  - destruct (isinstance_str k); auto.
Qed.

Lemma contains_then_lookup_witness :
  fst (__getitem__ 2 (KInt 1)
         (snd (__contains__ (KInt 1)
                 (construct [(KStr "2", VStr "two"); (KStr "4", VStr "four")]))))
    = Raise (KeyError (if isinstance_str (KInt 1) then KInt 1
                       else KStr (str (KInt 1)))) /\
  fst (get 2 (KInt 1) (VStr "N/A")
         (snd (__contains__ (KInt 1)
                 (construct [(KStr "2", VStr "two"); (KStr "4", VStr "four")]))))
    = Ret (VStr "N/A").
Proof.
  apply (contains_then_lookup 0
           (construct [(KStr "2", VStr "two"); (KStr "4", VStr "four")])
           (KInt 1) (VStr "N/A") false).
  reflexivity.
Defined.

(** ** Instances whose keys are all text *)

Lemma all_text_setitem (d : dict) (k : key) (v : value) :
  all_text d -> isinstance_str k = true -> all_text (dict_setitem d k v).
Proof.
  unfold all_text, keys. intros A T.
  induction d as [| [k' v'] d IH]; simpl.
  - repeat constructor. exact T.
  - inversion A as [| ? ? Hk Hd]; subst.
    destruct (py_eq k k'); simpl; constructor; auto.
Qed.

Lemma all_text_fold (pairs : list (key * value)) :
  Forall (fun kv => isinstance_str (fst kv) = true) pairs ->
  forall d, all_text d ->
    all_text (fold_left (fun d kv => dict_setitem d (fst kv) (snd kv)) pairs d).
Proof.
  induction 1 as [| kv pairs Hk _ IH]; simpl; intros d A; auto.
  apply IH. now apply all_text_setitem.
Qed.

(** X5.  An instance built from pairs whose keys are all text stores
    text keys only, and storing under a text key keeps it so. *)
Theorem text_keys_are_kept
    (pairs : list (key * value)) (st : state) (k : key) (v : value) :
  Forall (fun kv => isinstance_str (fst kv) = true) pairs ->
  all_text (store st) ->
  isinstance_str k = true ->
  all_text (store (construct pairs)) /\
  all_text (store (snd (__setitem__ k v st))).
Proof.
  intros P A T. split.
  - simpl. unfold dict_init. apply all_text_fold; [exact P | constructor].
  - simpl. now apply all_text_setitem.
Qed.

Lemma text_keys_are_kept_witness :
  all_text
    (store (construct [(KStr "2", VStr "two"); (KStr "4", VStr "four")])) /\
  all_text
    (store (snd (__setitem__ (KStr "6") (VStr "six")
                   (construct [(KStr "2", VStr "two")])))).
Proof.
  apply (text_keys_are_kept
           [(KStr "2", VStr "two"); (KStr "4", VStr "four")]
           (construct [(KStr "2", VStr "two")]) (KStr "6") (VStr "six")).
  - repeat constructor.
  - repeat constructor.
  - reflexivity.
Defined.



(** ** Writing, then reading *)

(** X7.  After [self[k] = v], [self[k]] returns [v] from the first
    table lookup, [self.get(k, default)] returns [v] and [k in self] is
    [True]. *)
Theorem setitem_then_read
    (n : nat) (st : state) (k : key) (v dflt : value) :
  __getitem__ (S n) k (snd (__setitem__ k v st))
    = (Ret v, emit (snd (__setitem__ k v st)) [EvLookup k]) /\
  fst (get (S n) k dflt (snd (__setitem__ k v st))) = Ret v /\
  fst (__contains__ k (snd (__setitem__ k v st))) = Ret true.
Proof.
  assert (L : dict_lookup (store (snd (__setitem__ k v st))) k = Some v)
    by (simpl; rewrite lookup_setitem; now rewrite py_eq_refl).
  split; [| split].
  - now apply getitem_hit.
  - unfold get, try_except_KeyError. now rewrite (getitem_hit _ _ k v L).
  - rewrite contains_fst. now rewrite L.
Qed.

(** X8.  Storing [v] under the text [str(n)] makes it readable through
    a key [n] that is not text, provided the table holds nothing under
    [n] itself: then [self[n]] and [self.get(n, default)] return [v]
    and [n in self] is [True]. *)
Theorem setitem_text_then_read_nontext
    (m : nat) (st : state) (n : key) (v dflt : value) :
  isinstance_str n = false ->
  dict_lookup (store st) n = None ->
  fst (__getitem__ (S (S m)) n (snd (__setitem__ (KStr (str n)) v st)))
    = Ret v /\
  fst (get (S (S m)) n dflt (snd (__setitem__ (KStr (str n)) v st)))
    = Ret v /\
  fst (__contains__ n (snd (__setitem__ (KStr (str n)) v st))) = Ret true.
Proof.
  intros T L.
  rewrite getitem_fst, get_fst, contains_fst. simpl.
  rewrite !lookup_setitem, py_eq_refl.
  rewrite (py_eq_sym n), py_eq_str_nonstr by exact T.
  now rewrite L, T.
Qed.

Lemma setitem_text_then_read_nontext_witness :
  fst (__getitem__ 2 (KInt 6)
         (snd (__setitem__ (KStr (str (KInt 6))) (VStr "six")
                 (construct [(KStr "2", VStr "two")]))))
    = Ret (VStr "six") /\
  fst (get 2 (KInt 6) VNone
         (snd (__setitem__ (KStr (str (KInt 6))) (VStr "six")
                 (construct [(KStr "2", VStr "two")]))))
    = Ret (VStr "six") /\
  fst (__contains__ (KInt 6)
         (snd (__setitem__ (KStr (str (KInt 6))) (VStr "six")
                 (construct [(KStr "2", VStr "two")]))))
    = Ret true.
Proof.
  apply (setitem_text_then_read_nontext 0
           (construct [(KStr "2", VStr "two")]) (KInt 6) (VStr "six") VNone);
    reflexivity.
Defined.



(** ** Construction, for keys of every type *)

(** X10.  On an instance built from pairs, if [(k, v)] is the last pair
    whose key equals [k], then [self[k]] returns [v] from the first
    table lookup, [self.get(k, default)] returns [v] and [k in self] is
    [True]. *)
Theorem construct_then_read
    (m : nat) (ps1 ps2 : list (key * value)) (k : key) (v dflt : value) :
  (forall kv, In kv ps2 -> py_eq k (fst kv) = false) ->
  __getitem__ (S m) k (construct (ps1 ++ (k, v) :: ps2))
    = (Ret v, emit (construct (ps1 ++ (k, v) :: ps2)) [EvLookup k]) /\
  fst (get (S m) k dflt (construct (ps1 ++ (k, v) :: ps2))) = Ret v /\
  fst (__contains__ k (construct (ps1 ++ (k, v) :: ps2))) = Ret true.
Proof.
  intros H.
  assert (L : dict_lookup (store (construct (ps1 ++ (k, v) :: ps2))) k
              = Some v)
    by (simpl; rewrite lookup_init; now apply last_binding_split).
  split; [| split].
  - now apply getitem_hit.
  - unfold get, try_except_KeyError. now rewrite (getitem_hit _ _ k v L).
  - rewrite contains_fst. now rewrite L.
Qed.

Lemma construct_then_read_witness :
  __getitem__ 1 (KStr "2")
    (construct ([(KStr "2", VStr "deux")] ++
                (KStr "2", VStr "two") :: [(KStr "4", VStr "four")]))
    = (Ret (VStr "two"),
       emit (construct ([(KStr "2", VStr "deux")] ++
                        (KStr "2", VStr "two") :: [(KStr "4", VStr "four")]))
            [EvLookup (KStr "2")]) /\
  fst (get 1 (KStr "2") VNone
         (construct ([(KStr "2", VStr "deux")] ++
                     (KStr "2", VStr "two") :: [(KStr "4", VStr "four")])))
    = Ret (VStr "two") /\
  fst (__contains__ (KStr "2")
         (construct ([(KStr "2", VStr "deux")] ++
                     (KStr "2", VStr "two") :: [(KStr "4", VStr "four")])))
    = Ret true.
Proof.
  apply (construct_then_read 0 [(KStr "2", VStr "deux")]
           [(KStr "4", VStr "four")] (KStr "2") (VStr "two") VNone).
  intros kv [E | []]. subst kv. reflexivity.
Defined.

(** X11.  On the empty instance every key is missing: [self[k]] raises
    [KeyError], carrying [k] if it is text-typed and [str(k)]
    otherwise, [self.get(k, default)] returns [default] and [k in
    self] is [False]. *)
Theorem empty_instance_misses (n : nat) (k : key) (dflt : value) :
  fst (__getitem__ (S (S n)) k (construct []))
    = Raise (KeyError (if isinstance_str k then k else KStr (str k))) /\
  fst (get (S (S n)) k dflt (construct [])) = Ret dflt /\
  fst (__contains__ k (construct [])) = Ret false.
Proof.
  rewrite getitem_fst, get_fst, contains_fst. simpl.
  destruct (isinstance_str k); auto.
Qed.

(** ** Keys that compare equal *)

(** X12.  If [a] and [b] compare equal (as [True] and [1] do) and the
    table has an entry for [a], then [self[b]] returns that entry's
    value from the first table lookup, [self.get(b, default)] returns
    it and [b in self] is [True]. *)
Theorem equal_keys_share_entry
    (n : nat) (st : state) (a b : key) (v dflt : value) :
  py_eq a b = true ->
  dict_lookup (store st) a = Some v ->
  __getitem__ (S n) b st = (Ret v, emit st [EvLookup b]) /\
  fst (get (S n) b dflt st) = Ret v /\
  fst (__contains__ b st) = Ret true.
Proof.
  intros E La.
  assert (L : dict_lookup (store st) b = Some v)
    by now rewrite <- (lookup_congr _ a b E).
  split; [| split].
  - now apply getitem_hit.
  - unfold get, try_except_KeyError. now rewrite (getitem_hit _ _ b v L).
  - rewrite contains_fst. now rewrite L.
Qed.

Lemma equal_keys_share_entry_witness :
  __getitem__ 1 (KBool true) (construct [(KInt 1, VStr "one")])
    = (Ret (VStr "one"),
       emit (construct [(KInt 1, VStr "one")]) [EvLookup (KBool true)]) /\
  fst (get 1 (KBool true) VNone (construct [(KInt 1, VStr "one")]))
    = Ret (VStr "one") /\
  fst (__contains__ (KBool true) (construct [(KInt 1, VStr "one")]))
    = Ret true.
Proof.
  apply (equal_keys_share_entry 0 (construct [(KInt 1, VStr "one")])
           (KInt 1) (KBool true) (VStr "one") VNone);
    reflexivity.
Defined.

(** ** The stored keys *)

Lemma keys_setitem_shape (d : dict) (k : key) (v : value) :
  keys (dict_setitem d k v) =
  if keys_contains d k then keys d else keys d ++ [k].
Proof.
  unfold keys_contains, keys.
  induction d as [| [k' v'] d IH]; simpl; auto.
  destruct (py_eq k k') eqn:E; simpl; auto.
  rewrite IH. now destruct (existsb (py_eq k) (map fst d)).
Qed.

Lemma keys_distinct_snoc (ks : list key) (k : key) :
  keys_distinct ks = true ->
  existsb (py_eq k) ks = false ->
  keys_distinct (ks ++ [k]) = true.
Proof.
  induction ks as [| k0 ks IH]; simpl; auto.
  intros D N.
  apply Bool.andb_true_iff in D. destruct D as [D0 D].
  apply Bool.orb_false_iff in N. destruct N as [N0 N].
  apply Bool.andb_true_iff. split; [| now apply IH].
  rewrite existsb_app. simpl.
  rewrite (py_eq_sym k0 k), N0.
  apply Bool.negb_true_iff in D0. now rewrite D0.
Qed.

Lemma keys_distinct_setitem (d : dict) (k : key) (v : value) :
  keys_distinct (keys d) = true ->
  keys_distinct (keys (dict_setitem d k v)) = true.
Proof.
  intros D. rewrite keys_setitem_shape.
  destruct (keys_contains d k) eqn:C; auto.
  now apply keys_distinct_snoc.
Qed.

Lemma keys_length_setitem (d : dict) (k : key) (v : value) :
  List.length (keys (dict_setitem d k v)) <= S (List.length (keys d)).
Proof.
  rewrite keys_setitem_shape. destruct (keys_contains d k).
  - lia.
  - rewrite length_app. simpl. lia.
Qed.

Lemma last_binding_found (pairs : list (key * value)) (k : key) :
  forall acc,
    acc <> None \/ (exists kv, In kv pairs /\ py_eq k (fst kv) = true) ->
    fold_left (fun acc kv => if py_eq k (fst kv) then Some (snd kv) else acc)
              pairs acc <> None.
Proof.
  induction pairs as [| kv pairs IH]; simpl; intros acc H.
  - destruct H as [H | (kv & [] & _)]. exact H.
  - apply IH. destruct (py_eq k (fst kv)) eqn:E.
    + left. discriminate.
    + destruct H as [H | (kv' & [-> | Hin] & E')]; eauto. congruence.
Qed.

(** X13.  The stored keys of a constructed instance are pairwise
    unequal and no more than the pairs supplied, and every supplied key
    equals one of them. *)
Theorem construct_keys_distinct (pairs : list (key * value)) :
  keys_distinct (keys (store (construct pairs))) = true /\
  List.length (keys (store (construct pairs))) <= List.length pairs /\
  forallb (fun kv => keys_contains (store (construct pairs)) (fst kv)) pairs
    = true.
Proof.
  split; [| split].
  - simpl. induction pairs as [| [k v] pairs IH] using rev_ind.
    + reflexivity.
    + rewrite dict_init_snoc. now apply keys_distinct_setitem.
  - simpl. induction pairs as [| [k v] pairs IH] using rev_ind.
    + simpl. lia.
    + rewrite dict_init_snoc, length_app. simpl.
      pose proof (keys_length_setitem (dict_init pairs) k v). lia.
  - apply forallb_forall. intros kv Hin. simpl.
    apply keys_contains_lookup. rewrite lookup_init.
    apply last_binding_found. right. exists kv. split; auto.
    apply py_eq_refl.
Qed.

(** X14.  [self[k] = v] on a table whose keys are pairwise unequal
    leaves them so; when a stored key equals [k] the list of keys is
    unchanged, otherwise [k] is added at the end. *)
Theorem setitem_keys (st : state) (k : key) (v : value) :
  keys_distinct (keys (store st)) = true ->
  keys_distinct (keys (store (snd (__setitem__ k v st)))) = true /\
  keys (store (snd (__setitem__ k v st))) =
    if keys_contains (store st) k then keys (store st)
    else keys (store st) ++ [k].
Proof.
  intros D. simpl. split.
  - now apply keys_distinct_setitem.
  - apply keys_setitem_shape.
Qed.

Lemma setitem_keys_witness :
  keys_distinct
    (keys (store (snd (__setitem__ (KInt 4) (VInt 4)
                         (construct [(KStr "4", VStr "four")]))))) = true /\
  keys (store (snd (__setitem__ (KInt 4) (VInt 4)
                      (construct [(KStr "4", VStr "four")])))) =
    if keys_contains (store (construct [(KStr "4", VStr "four")])) (KInt 4)
    then keys (store (construct [(KStr "4", VStr "four")]))
    else keys (store (construct [(KStr "4", VStr "four")])) ++ [KInt 4].
Proof.
  apply (setitem_keys (construct [(KStr "4", VStr "four")]) (KInt 4) (VInt 4)).
  reflexivity.
Defined.
